(** * FieldPill: the interaction core of the field-list pill

    A shallow embedding of [src/components/FieldList/FieldPill.tsx]: the
    lookup tables, the values computed at render time, the event handlers
    of the pill and of its nested type-toggle button, and the way React
    delivers a DOM event to them.

    Conventions.
    - A JavaScript string is a [string] (its UTF-8 bytes).
    - A plain object used as a lookup table is a [gmap string string];
      a missing key reads as [None], the model of [undefined].
    - Component state ([useState], [useRef]) is the record [PillState];
      a handler is a state transformer over what one event delivery can
      touch (see [Handler]). *)

From Stdlib Require Import Ascii String.
From stdpp Require Import gmap strings list fin_maps.

Local Open Scope string_scope.

(** ** [../../types] *)

Module Types.

(** Modelled from the spec: the declaration of [FieldType] in
    [src/types], an enumeration of exactly four values.  In TypeScript it
    is a union of string literals, and [FieldType_str] is the string a
    value is at run time. *)
Inductive FieldType := quantitative | nominal | ordinal | temporal.

Definition FieldType_str (t : FieldType) : string :=
  match t with
  | quantitative => "quantitative"
  | nominal => "nominal"
  | ordinal => "ordinal"
  | temporal => "temporal"
  end.

(** Modelled from the spec: the declaration of [DetectedField] in
    [src/types], [{ name: string, type: FieldType }], with its properties
    in this order. *)
Record DetectedField := { name : string; type : FieldType }.

End Types.
Export Types.

#[global] Instance FieldType_eq_dec : EqDecision FieldType.
Proof. solve_decision. Defined.

#[global] Instance DetectedField_eq_dec : EqDecision DetectedField.
Proof. solve_decision. Defined.

(** ** JavaScript values the component compares *)

Module JS.

(** The two kinds of value [state.selectedField?.name] can be. *)
Inductive Value := undefined | Str (s : string).

(** [a === b] on these values. *)
Definition strict_eq (a b : Value) : bool :=
  match a, b with
  | undefined, undefined => true
  | Str x, Str y => String.eqb x y
  | _, _ => false
  end.

(** [o?.name]: [undefined] when [o] is absent, no property read then. *)
Definition optional_name (o : option DetectedField) : Value :=
  match o with
  | None => undefined
  | Some f => Str (name f)
  end.

End JS.

(** ** The lookup tables *)

Definition TYPE_COLORS : gmap string string :=
  <["quantitative" := "var(--color-quantitative)"]>
  (<["nominal" := "var(--color-nominal)"]>
  (<["ordinal" := "var(--color-ordinal)"]>
  (<["temporal" := "var(--color-temporal)"]> ∅))).

Definition TYPE_LABELS : gmap string string :=
  <["quantitative" := "Q"]>
  (<["nominal" := "N"]>
  (<["ordinal" := "O"]>
  (<["temporal" := "T"]> ∅))).

(** [TABLE[field.type]] *)
Definition index_by_type (table : gmap string string) (t : FieldType)
  : option string :=
  table !! FieldType_str t.

(** ** [JSON.stringify], as far as the component uses it *)

Module JSON.

(** One lowercase hexadecimal digit. *)
Definition hex_digit (n : N) : ascii :=
  if (n <? 10)%N then ascii_of_N (48 + n) else ascii_of_N (87 + n).

(** [UnicodeEscape] of a code unit below 256: a backslash, [u], and four
    lowercase hexadecimal digits. *)
Definition UnicodeEscape (c : ascii) : string :=
  "\u00" +:+
  String (hex_digit (N_of_ascii c / 16))
    (String (hex_digit (N_of_ascii c mod 16)) EmptyString).

(** What [QuoteJSONString] appends for one character: a two-character
    escape for backspace, tab, line feed, form feed, carriage return, the
    quote and the backslash; a unicode escape for the other control
    characters; the character itself otherwise (so the bytes of a
    multi-byte character are copied). *)
Definition QuoteJSONChar (c : ascii) : string :=
  if Ascii.eqb c "008" then "\b"
  else if Ascii.eqb c "009" then "\t"
  else if Ascii.eqb c "010" then "\n"
  else if Ascii.eqb c "012" then "\f"
  else if Ascii.eqb c "013" then "\r"
  else if Ascii.eqb c "034" then String "\" (String "034" EmptyString)
  else if Ascii.eqb c "\" then "\\"
  else if (N_of_ascii c <? 32)%N then UnicodeEscape c
  else String c EmptyString.

Fixpoint QuoteJSONChars (s : string) : string :=
  match s with
  | EmptyString => EmptyString
  | String c rest => QuoteJSONChar c +:+ QuoteJSONChars rest
  end.

Definition QuoteJSONString (s : string) : string :=
  String "034" (QuoteJSONChars s +:+ String "034" EmptyString).

(** One member of an object whose value is a string: the quoted key, a
    colon, the quoted value (no gap). *)
Definition SerializeJSONProperty (key value : string) : string :=
  QuoteJSONString key +:+ ":" +:+ QuoteJSONString value.

(** [JSON.stringify(field)]: the own properties of the object in their
    order, separated by commas, between braces. *)
Definition stringify (field : DetectedField) : string :=
  "{" +:+ SerializeJSONProperty "name" (name field) +:+ "," +:+
  SerializeJSONProperty "type" (FieldType_str (type field)) +:+ "}".

(** *** Reading the payload back

    What a drop target gets from [JSON.parse] on the payload, for the
    texts [stringify] writes: one object, its members [name] and [type]
    in this order, both strings, no white space.  The reader accepts the
    escapes of the JSON grammar; a unicode escape is decoded when it
    names a code unit below 128. *)

Definition hex_value (c : ascii) : option N :=
  let n := N_of_ascii c in
  if ((48 <=? n) && (n <=? 57))%N then Some (n - 48)%N
  else if ((97 <=? n) && (n <=? 102))%N then Some (n - 87)%N
  else if ((65 <=? n) && (n <=? 70))%N then Some (n - 55)%N
  else None.

Definition unescape (c : ascii) : option ascii :=
  if Ascii.eqb c "b" then Some "008"%char
  else if Ascii.eqb c "t" then Some "009"%char
  else if Ascii.eqb c "n" then Some "010"%char
  else if Ascii.eqb c "f" then Some "012"%char
  else if Ascii.eqb c "r" then Some "013"%char
  else if Ascii.eqb c "034" then Some "034"%char
  else if Ascii.eqb c "\" then Some "\"%char
  else if Ascii.eqb c "/" then Some "/"%char
  else None.

Definition unicode_unit (h1 h2 h3 h4 : ascii) : option ascii :=
  match hex_value h1, hex_value h2, hex_value h3, hex_value h4 with
  | Some a, Some b, Some c, Some d =>
      let n := (((a * 16 + b) * 16 + c) * 16 + d)%N in
      if (n <? 128)%N then Some (ascii_of_N n) else None
  | _, _, _, _ => None
  end.

(** The characters of a string literal after its opening quote: the
    decoded string and the text after the closing quote. *)
Fixpoint read_chars (s : string) : option (string * string) :=
  match s with
  | EmptyString => None
  | String c rest =>
      if Ascii.eqb c "034" then Some (EmptyString, rest)
      else if Ascii.eqb c "\" then
        match rest with
        | EmptyString => None
        | String e rest' =>
            if Ascii.eqb e "u" then
              match rest' with
              | String h1 (String h2 (String h3 (String h4 rest''))) =>
                  match unicode_unit h1 h2 h3 h4, read_chars rest'' with
                  | Some d, Some (v, k) => Some (String d v, k)
                  | _, _ => None
                  end
              | _ => None
              end
            else
              match unescape e, read_chars rest' with
              | Some d, Some (v, k) => Some (String d v, k)
              | _, _ => None
              end
        end
      else if (N_of_ascii c <? 32)%N then None
      else
        match read_chars rest with
        | Some (v, k) => Some (String c v, k)
        | None => None
        end
  end.

Definition read_string (s : string) : option (string * string) :=
  match s with
  | String c rest => if Ascii.eqb c "034" then read_chars rest else None
  | EmptyString => None
  end.

(** [expect p s]: the text after the prefix [p] of [s]. *)
Fixpoint expect (p s : string) : option string :=
  match p, s with
  | EmptyString, _ => Some s
  | String a p', String b s' => if Ascii.eqb a b then expect p' s' else None
  | String _ _, EmptyString => None
  end.

Definition read_member (key s : string) : option (string * string) :=
  match read_string s with
  | Some (k, s1) =>
      if String.eqb k key then
        match expect ":" s1 with
        | Some s2 => read_string s2
        | None => None
        end
      else None
  | None => None
  end.

Definition FieldType_of_string (s : string) : option FieldType :=
  if String.eqb s "quantitative" then Some quantitative
  else if String.eqb s "nominal" then Some nominal
  else if String.eqb s "ordinal" then Some ordinal
  else if String.eqb s "temporal" then Some temporal
  else None.

Definition parse_field (s : string) : option DetectedField :=
  match expect "{" s with
  | Some s1 =>
    match read_member "name" s1 with
    | Some (n, s2) =>
      match expect "," s2 with
      | Some s3 =>
        match read_member "type" s3 with
        | Some (t, s4) =>
          match expect "}" s4, FieldType_of_string t with
          | Some EmptyString, Some ty => Some {| name := n; type := ty |}
          | _, _ => None
          end
        | None => None
        end
      | None => None
      end
    | None => None
    end
  | None => None
  end.

End JSON.

(** ** The drag data store *)

Module DOM.

(** [e.dataTransfer] during a drag-start: the items of the drag data
    store by type string, and the [effectAllowed] attribute. *)
Record DataTransfer := {
  items : gmap string string;
  effectAllowed : string
}.

(** [dt.setData(format, data)]: the item of that type is replaced, or
    added.  ([format] is converted to ASCII lowercase first; the one the
    component passes is in lowercase already.) *)
Definition setData (format data : string) (dt : DataTransfer)
  : DataTransfer :=
  {| items := <[format := data]> (items dt);
     effectAllowed := effectAllowed dt |}.

(** [dt.effectAllowed = v] *)
Definition set_effectAllowed (v : string) (dt : DataTransfer)
  : DataTransfer :=
  {| items := items dt; effectAllowed := v |}.

(** The store as a drag-and-drop operation creates it. *)
Definition fresh : DataTransfer :=
  {| items := ∅; effectAllowed := "uninitialized" |}.

End DOM.
Export DOM.

(** ** [../../context/AppContext] *)

Module AppContext.

(** Modelled from the spec: the state of [src/context/AppContext], as
    far as the pill is concerned: the field registry and the selection,
    [selectedField: field | none]. *)
Record AppState := {
  fields : list DetectedField;
  selectedField : option DetectedField
}.

(** The three operations the component takes from [useApp()].  Calling
    one requests a change of the shared state; a [Call] is such a
    request. *)
Inductive Call :=
| SelectField (field : DetectedField)
| ClearSelectedField
| ToggleFieldType (fieldName : string).

(** Modelled from the spec: [selectField(field)] sets this field as the
    shared selection, replacing any previously selected field. *)
Definition selectField (field : DetectedField) (st : AppState) : AppState :=
  {| fields := fields st; selectedField := Some field |}.

(** Modelled from the spec: [clearSelectedField()] clears the shared
    selection. *)
Definition clearSelectedField (st : AppState) : AppState :=
  {| fields := fields st; selectedField := None |}.

(** Modelled from the spec: the flip between [nominal] and [ordinal];
    no other type is reachable from the control. *)
Definition flip (t : FieldType) : FieldType :=
  match t with
  | nominal => ordinal
  | ordinal => nominal
  | t => t
  end.

(** Modelled from the spec: [toggleFieldType(name)] flips the type of
    the field of that name between [nominal] and [ordinal] in the
    registry, and nothing else. *)
Definition toggleFieldType (fieldName : string) (st : AppState) : AppState :=
  {| fields :=
       map (fun f => if String.eqb (name f) fieldName
                     then {| name := name f; type := flip (type f) |}
                     else f)
           (fields st);
     selectedField := selectedField st |}.

(** What a request does to the shared state. *)
Definition perform (c : Call) (st : AppState) : AppState :=
  match c with
  | SelectField field => selectField field st
  | ClearSelectedField => clearSelectedField st
  | ToggleFieldType fieldName => toggleFieldType fieldName st
  end.

(** The requests of one event delivery, applied in the order made. *)
Definition perform_all (cs : list Call) (st : AppState) : AppState :=
  fold_left (fun s c => perform c s) cs st.

End AppContext.
Export AppContext.

(** ** Component state and handlers *)

(** [isHovered] and [isDragging] are the two [useState] cells,
    [lastPointerTypeRef] is [lastPointerTypeRef.current]. *)
Record PillState := {
  isHovered : bool;
  isDragging : bool;
  lastPointerTypeRef : string
}.

(** The values of the ref's type, ['mouse' | 'pen' | 'touch' | 'unknown']. *)
Definition PointerKind : list string := ["mouse"; "pen"; "touch"; "unknown"].

(** The state of a freshly mounted pill: [useState(false)] twice and
    [useRef('unknown')]. *)
Definition mounted : PillState :=
  {| isHovered := false; isDragging := false;
     lastPointerTypeRef := "unknown" |}.

(** What the handlers run during the delivery of one event can read and
    write: the component state, the event's [dataTransfer], whether
    [stopPropagation()] was called, and the requests made to the shared
    state so far (latest last). *)
Record Delivery := {
  pill : PillState;
  dataTransfer : DataTransfer;
  propagationStopped : bool;
  calls : list Call
}.

(** A handler: a state transformer over a [Delivery], with a result. *)
Definition Handler (A : Type) : Type := Delivery -> A * Delivery.

#[global] Instance Handler_ret : MRet Handler := fun _ x d => (x, d).
#[global] Instance Handler_bind : MBind Handler :=
  fun _ _ k m d => let (x, d') := m d in k x d'.

(** The delivery a handler leaves. *)
Definition exec {A} (m : Handler A) (d : Delivery) : Delivery := snd (m d).

Definition skip : Handler unit := mret tt.

Definition modify (f : Delivery -> Delivery) : Handler unit :=
  fun d => (tt, f d).

Definition update_pill (f : PillState -> PillState) : Handler unit :=
  modify (fun d =>
    {| pill := f (pill d); dataTransfer := dataTransfer d;
       propagationStopped := propagationStopped d; calls := calls d |}).

Definition update_dataTransfer (f : DataTransfer -> DataTransfer)
  : Handler unit :=
  modify (fun d =>
    {| pill := pill d; dataTransfer := f (dataTransfer d);
       propagationStopped := propagationStopped d; calls := calls d |}).

(** [setIsHovered(b)] *)
Definition setIsHovered (b : bool) : Handler unit :=
  update_pill (fun p =>
    {| isHovered := b; isDragging := isDragging p;
       lastPointerTypeRef := lastPointerTypeRef p |}).

(** [setIsDragging(b)] *)
Definition setIsDragging (b : bool) : Handler unit :=
  update_pill (fun p =>
    {| isHovered := isHovered p; isDragging := b;
       lastPointerTypeRef := lastPointerTypeRef p |}).

(** [lastPointerTypeRef.current = v] *)
Definition write_lastPointerTypeRef (v : string) : Handler unit :=
  update_pill (fun p =>
    {| isHovered := isHovered p; isDragging := isDragging p;
       lastPointerTypeRef := v |}).

(** [lastPointerTypeRef.current] *)
Definition read_lastPointerTypeRef : Handler string :=
  fun d => (lastPointerTypeRef (pill d), d).

(** [e.stopPropagation()] *)
Definition stopPropagation : Handler unit :=
  modify (fun d =>
    {| pill := pill d; dataTransfer := dataTransfer d;
       propagationStopped := true; calls := calls d |}).

Definition propagation_stopped : Handler bool :=
  fun d => (propagationStopped d, d).

(** A call of one of the [useApp()] operations. *)
Definition call (c : Call) : Handler unit :=
  modify (fun d =>
    {| pill := pill d; dataTransfer := dataTransfer d;
       propagationStopped := propagationStopped d;
       calls := calls d ++ [c] |}).

(** The handlers are closures of one render: they see the props and
    the shared state of that render. *)
Section Render.

(** The props: [field] (and [index], which only staggers the entry
    animation and is left out). *)
Variable field : DetectedField.

(** [state] as [useApp()] gave it to this render. *)
Variable state : AppState.

Definition isSelected : bool :=
  JS.strict_eq (JS.optional_name (selectedField state)) (JS.Str (name field)).

Definition handlePointerDown (pointerType : string) : Handler unit :=
  write_lastPointerTypeRef
    (if String.eqb pointerType "mouse" || String.eqb pointerType "pen"
        || String.eqb pointerType "touch"
     then pointerType
     else "unknown").

Definition handleClick : Handler unit :=
  current ← read_lastPointerTypeRef;
  if String.eqb current "touch" then
    if isSelected then call ClearSelectedField
    else call (SelectField field)
  else skip.

Definition handleDragStart : Handler unit :=
  update_dataTransfer (setData "application/json" (JSON.stringify field));;
  update_dataTransfer (set_effectAllowed "copy");;
  setIsDragging true.

Definition handleDragEnd : Handler unit :=
  setIsDragging false.

Definition canToggle : bool :=
  bool_decide (type field = ordinal) || bool_decide (type field = nominal).

Definition color : option string := index_by_type TYPE_COLORS (type field).

End Render.

(** ** What a render shows *)

(** The nested button: its [title] and its text. *)
Record ToggleButton := {
  title : string;
  text : string
}.

(** The parts of the returned element that depend on props or state
    (the numbers of [opacity] as the text the style gets). *)
Record View := {
  backgroundColor : string;
  border : string;
  cursor : string;
  transform : string;
  opacity : string;
  indicatorColor : option string;
  label : option string;
  shownName : string;
  toggle : option ToggleButton
}.

Definition FieldPill (field : DetectedField) (state : AppState)
    (p : PillState) : View :=
  {| backgroundColor :=
       if isSelected field state then "var(--color-accent-glow)"
       else if isHovered p then "var(--color-bg-tertiary)"
       else "var(--color-bg-elevated)";
     border :=
       "1px solid " +:+
       (if isSelected field state then "var(--color-accent)"
        else if isHovered p then "var(--color-border-hover)"
        else "var(--color-border)");
     cursor := if isDragging p then "grabbing" else "grab";
     transform := if isHovered p then "translateX(4px)" else "translateX(0)";
     opacity := if isDragging p then "0.5" else "1";
     indicatorColor := color field;
     label := index_by_type TYPE_LABELS (type field);
     shownName := name field;
     toggle :=
       if canToggle field && isHovered p then
         Some {| title :=
                   if bool_decide (type field = ordinal)
                   then "Switch to Nominal (distinct colors)"
                   else "Switch to Ordinal (gradient colors)";
                 text :=
                   if bool_decide (type field = ordinal) then "N" else "O" |}
       else None |}.

(** ** Event delivery *)

(** The events the two elements have handlers for. *)
Inductive Event :=
| PointerDown (pointerType : string)
| Click
| MouseDown
| DragStart
| DragEnd
| MouseEnter
| MouseLeave.

(** Where an event is targeted: the pill's own [div], or the nested
    toggle button. *)
Inductive Target := OnPill | OnToggle.

(** The handler props of the [div]. *)
Definition pill_props (field : DetectedField) (state : AppState)
    (ev : Event) : Handler unit :=
  match ev with
  | PointerDown pointerType => handlePointerDown pointerType
  | Click => handleClick field state
  | DragStart => handleDragStart field
  | DragEnd => handleDragEnd
  | MouseEnter => setIsHovered true
  | MouseLeave => setIsHovered false
  | MouseDown => skip
  end.

(** The handler props of the button.  ([onMouseOver] and [onMouseOut]
    restyle the button's own node and are left out.) *)
Definition toggle_props (field : DetectedField) (ev : Event) : Handler unit :=
  match ev with
  | Click => stopPropagation;; call (ToggleFieldType (name field))
  | MouseDown => stopPropagation
  | _ => skip
  end.

(** Mouse-enter and mouse-leave are delivered to their target only. *)
Definition bubbles (ev : Event) : bool :=
  match ev with
  | MouseEnter | MouseLeave => false
  | _ => true
  end.

(** The handlers along the path from the target up, run in turn until
    one stops the propagation. *)
Fixpoint propagate (path : list (Handler unit)) : Handler unit :=
  match path with
  | [] => skip
  | h :: rest =>
      h;;
      stopped ← propagation_stopped;
      if stopped : bool then skip else propagate rest
  end.

(** The handlers an event meets on its way up from its target.  The
    button is inside the [div]; it is there only when the render shows
    it. *)
Definition path (field : DetectedField) (state : AppState) (p : PillState)
    (target : Target) (ev : Event) : list (Handler unit) :=
  match target with
  | OnPill => [pill_props field state ev]
  | OnToggle =>
      match toggle (FieldPill field state p) with
      | None => []
      | Some _ =>
          if bubbles ev
          then [toggle_props field ev; pill_props field state ev]
          else [toggle_props field ev]
      end
  end.

(** One pill on the screen: the shared state, the pill's own state, and
    the drag data store of the drag-and-drop operation. *)
Record Screen := {
  app : AppState;
  local : PillState;
  drag : DataTransfer
}.

(** The delivery of one event: the handlers close over the render of
    the current state; the requests they made are then applied to the
    shared state. *)
Definition delivery (field : DetectedField) (s : Screen)
    (target : Target) (ev : Event) : Delivery :=
  exec (propagate (path field (app s) (local s) target ev))
       {| pill := local s; dataTransfer := drag s;
          propagationStopped := false; calls := [] |}.

Definition deliver (field : DetectedField) (s : Screen)
    (target : Target) (ev : Event) : Screen :=
  let d := delivery field s target ev in
  {| app := perform_all (calls d) (app s);
     local := pill d;
     drag := dataTransfer d |}.

(** A touch tap on the pill: pointer-down of kind [touch], then the
    click. *)
Definition tap (field : DetectedField) (s : Screen) : Screen :=
  deliver field (deliver field s OnPill (PointerDown "touch")) OnPill Click.

(** A sequence of events, delivered one after the other. *)
Definition run (field : DetectedField) (s : Screen)
    (events : list (Target * Event)) : Screen :=
  fold_left (fun s' e => deliver field s' e.1 e.2) events s.

(** ** The rest of the render *)

(** The opacity of the drag indicator, the six dots at the right end. *)
Definition gripOpacity (p : PillState) : string :=
  if isHovered p then "1" else "0".

(** The three colors of the toggle button that its [onMouseOver] and
    [onMouseOut] assign through [e.currentTarget.style]. *)
Record ButtonColors := {
  button_backgroundColor : string;
  button_borderColor : string;
  button_color : string
}.

(** The colors the [style] prop of the button gives ([border] is
    ['1px solid var(--color-border)'], whose color part is the border
    color). *)
Definition button_style : ButtonColors :=
  {| button_backgroundColor := "var(--color-bg-tertiary)";
     button_borderColor := "var(--color-border)";
     button_color := "var(--color-text-secondary)" |}.

Definition set_backgroundColor (v : string) (c : ButtonColors)
  : ButtonColors :=
  {| button_backgroundColor := v;
     button_borderColor := button_borderColor c;
     button_color := button_color c |}.

Definition set_borderColor (v : string) (c : ButtonColors) : ButtonColors :=
  {| button_backgroundColor := button_backgroundColor c;
     button_borderColor := v;
     button_color := button_color c |}.

Definition set_color (v : string) (c : ButtonColors) : ButtonColors :=
  {| button_backgroundColor := button_backgroundColor c;
     button_borderColor := button_borderColor c;
     button_color := v |}.

(** The button's [onMouseOver]: three assignments, in this order. *)
Definition button_onMouseOver (c : ButtonColors) : ButtonColors :=
  set_color "var(--color-accent)"
    (set_borderColor "var(--color-accent)"
       (set_backgroundColor "var(--color-accent-glow)" c)).

(** The button's [onMouseOut]. *)
Definition button_onMouseOut (c : ButtonColors) : ButtonColors :=
  set_color "var(--color-text-secondary)"
    (set_borderColor "var(--color-border)"
       (set_backgroundColor "var(--color-bg-tertiary)" c)).

(** ** Sample data *)

(** A pill the mouse is over. *)
Definition hovering : PillState :=
  {| isHovered := true; isDragging := false;
     lastPointerTypeRef := "mouse" |}.


Definition revenue : DetectedField :=
  {| name := "revenue"; type := quantitative |}.

Definition region : DetectedField :=
  {| name := "region"; type := nominal |}.

(** A pill whose last pointer-down was a touch. *)
Definition touched : PillState :=
  {| isHovered := false; isDragging := false;
     lastPointerTypeRef := "touch" |}.

(** A screen over the two sample fields, with the selection [sel] and
    the pill in state [p], outside any drag-and-drop operation. *)
Definition screen (sel : option DetectedField) (p : PillState) : Screen :=
  {| app := {| fields := [revenue; region]; selectedField := sel |};
     local := p;
     drag := fresh |}.

(** * Properties *)

(** ** The payload can be read back *)

Section Payload.

Import JSON.

Lemma append_nil (b : string) : EmptyString +:+ b = b.
Proof. reflexivity. Qed.

Lemma append_cons (x : ascii) (a b : string) :
  String x a +:+ b = String x (a +:+ b).
Proof. reflexivity. Qed.

Lemma append_assoc (a b c : string) : (a +:+ b) +:+ c = a +:+ (b +:+ c).
Proof.
  induction a as [|x a IH]; [reflexivity |].
  by rewrite !append_cons, IH.
Qed.

(** Push the appends of a text that starts with known characters to
    its unknown tail. *)
Ltac norm_text :=
  repeat first
    [rewrite append_assoc | rewrite append_cons | rewrite append_nil].

(** Reading what [QuoteJSONChar] wrote for one character gives the
    character back and goes on with the rest. *)
Lemma read_chars_QuoteJSONChar (c : ascii) (rest : string) :
  read_chars (QuoteJSONChar c +:+ rest) =
  match read_chars rest with
  | Some (v, k) => Some (String c v, k)
  | None => None
  end.
Proof.
  destruct c as [[] [] [] [] [] [] [] []]; reflexivity.
Qed.

Lemma read_chars_QuoteJSONChars (s k : string) :
  read_chars (QuoteJSONChars s +:+ String "034" k) = Some (s, k).
Proof.
  induction s as [|c s IH]; [reflexivity |].
  cbn [QuoteJSONChars].
  by rewrite append_assoc, read_chars_QuoteJSONChar, IH.
Qed.

Lemma read_string_QuoteJSONString (s k : string) :
  read_string (QuoteJSONString s +:+ k) = Some (s, k).
Proof.
  unfold QuoteJSONString. norm_text.
  cbn [read_string Ascii.eqb Bool.eqb]. apply read_chars_QuoteJSONChars.
Qed.

Lemma read_member_SerializeJSONProperty (key v k : string) :
  read_member key (SerializeJSONProperty key v +:+ k) = Some (v, k).
Proof.
  unfold read_member, SerializeJSONProperty.
  rewrite !append_assoc, read_string_QuoteJSONString, String.eqb_refl.
  norm_text. cbn [expect Ascii.eqb Bool.eqb].
  apply read_string_QuoteJSONString.
Qed.

Lemma FieldType_of_string_str (t : FieldType) :
  FieldType_of_string (FieldType_str t) = Some t.
Proof. by destruct t. Qed.

Lemma parse_field_stringify (field : DetectedField) :
  parse_field (stringify field) = Some field.
Proof.
  destruct field as [n t]. unfold parse_field, stringify.
  cbn [name type]. norm_text. cbn [expect Ascii.eqb Bool.eqb].
  rewrite read_member_SerializeJSONProperty. norm_text.
  cbn [expect Ascii.eqb Bool.eqb].
  rewrite read_member_SerializeJSONProperty.
  cbn [expect Ascii.eqb Bool.eqb].
  by rewrite FieldType_of_string_str.
Qed.

(** The payload of the sample field [revenue], character by character
    ([q] is the quote character). *)
Example stringify_revenue :
  let q := String "034" EmptyString in
  stringify revenue =
  "{" +:+ q +:+ "name" +:+ q +:+ ":" +:+ q +:+ "revenue" +:+ q +:+ "," +:+
  q +:+ "type" +:+ q +:+ ":" +:+ q +:+ "quantitative" +:+ q +:+ "}".
Proof. reflexivity. Qed.

(** Control characters, the quote and the backslash are escaped and
    still read back. *)
Example stringify_escapes :
  let n := String "010" (String "001" (String "034" "a\b")) in
  QuoteJSONChars n = "\n\u0001\" +:+ String "034" "a\\b" ∧
  parse_field (stringify {| name := n; type := ordinal |})
    = Some {| name := n; type := ordinal |}.
Proof. split; reflexivity. Qed.

End Payload.

(** ** The lookup tables *)

(** C7. Both tables have an entry for each of the four field types: the
    color lookup is defined, the label lookup gives Q, N, O and T; and
    the four type strings are the only keys, so no entry acts as a
    default. *)
Theorem type_tables_total :
  (∀ t : FieldType,
     index_by_type TYPE_COLORS t
       = Some ("var(--color-" +:+ FieldType_str t +:+ ")") ∧
     index_by_type TYPE_LABELS t
       = Some (match t with
               | quantitative => "Q"
               | nominal => "N"
               | ordinal => "O"
               | temporal => "T"
               end)) ∧
  (∀ key : string,
     (is_Some (TYPE_COLORS !! key) ↔ ∃ t, key = FieldType_str t) ∧
     (is_Some (TYPE_LABELS !! key) ↔ ∃ t, key = FieldType_str t)).
Proof.
  split.
  - intros []; split; vm_compute; reflexivity.
  - assert (Hdom : ∀ (m : gmap string string) (key : string),
              dom m = {["quantitative"; "nominal"; "ordinal"; "temporal"]} →
              is_Some (m !! key) ↔ ∃ t, key = FieldType_str t).
    { intros m key Hm. rewrite <- elem_of_dom, Hm.
      rewrite !elem_of_union, !elem_of_singleton. split.
      - intros [[[->| ->]| ->]| ->]; [by exists quantitative | by exists nominal
                                      | by exists ordinal | by exists temporal].
      - intros [[] ->]; simpl; tauto. }
    intros key; split; apply Hdom; unfold TYPE_COLORS, TYPE_LABELS;
      rewrite !dom_insert_L, dom_empty_L; set_solver.
Qed.

(** ** The toggle control *)

(** C5. The toggle button is part of the render exactly when the pill is
    hovered and the field is nominal or ordinal; a quantitative or a
    temporal field never shows it, hovered or not. *)
Theorem toggle_rendered_iff :
  (∀ (field : DetectedField) (state : AppState) (p : PillState),
     is_Some (toggle (FieldPill field state p)) ↔
     isHovered p = true ∧ (type field = nominal ∨ type field = ordinal)) ∧
  (∀ (n : string) (state : AppState) (p : PillState),
     toggle (FieldPill {| name := n; type := quantitative |} state p) = None ∧
     toggle (FieldPill {| name := n; type := temporal |} state p) = None).
Proof.
  split.
  - intros [n t] state [h g k]. unfold FieldPill, canToggle.
    cbn [toggle type isHovered].
    destruct t, h;
      (split;
       [ intros [b Hb]; vm_compute in Hb; try discriminate; auto
       | intros [Hh [Ht|Ht]]; try discriminate; eexists; reflexivity ]).
  - intros n state [[] g k]; split; reflexivity.
Qed.

(** ** What the delivery of each event comes to *)

(** Unfold the delivery of an event down to the state transformers. *)
Ltac run_delivery :=
  unfold deliver, delivery, path, propagate, pill_props, toggle_props,
    handleClick, handlePointerDown, handleDragStart, handleDragEnd, exec,
    skip, call, stopPropagation, propagation_stopped,
    read_lastPointerTypeRef, write_lastPointerTypeRef, setIsDragging,
    setIsHovered, update_pill, update_dataTransfer, modify,
    mbind, mret, Handler_bind, Handler_ret;
  cbn.

Lemma isSelected_by_name (field : DetectedField) (state : AppState) :
  isSelected field state = true ↔
  ∃ f, selectedField state = Some f ∧ name f = name field.
Proof.
  unfold isSelected. destruct (selectedField state) as [f|]; cbn.
  - rewrite String.eqb_eq. split; [eauto | by intros (? & [= ->] & ?)].
  - split; [discriminate | by intros (? & [=] & _)].
Qed.

Lemma delivery_Click (field : DetectedField) (s : Screen) :
  delivery field s OnPill Click =
  {| pill := local s; dataTransfer := drag s; propagationStopped := false;
     calls :=
       if String.eqb (lastPointerTypeRef (local s)) "touch"
       then [if isSelected field (app s)
             then ClearSelectedField else SelectField field]
       else [] |}.
Proof.
  run_delivery.
  destruct (String.eqb _ "touch"); [|reflexivity].
  by destruct (isSelected field (app s)).
Qed.

Lemma delivery_PointerDown (field : DetectedField) (s : Screen) (k : string) :
  delivery field s OnPill (PointerDown k) =
  {| pill :=
       {| isHovered := isHovered (local s);
          isDragging := isDragging (local s);
          lastPointerTypeRef :=
            if String.eqb k "mouse" || String.eqb k "pen"
               || String.eqb k "touch"
            then k else "unknown" |};
     dataTransfer := drag s; propagationStopped := false; calls := [] |}.
Proof. reflexivity. Qed.

Lemma delivery_DragStart (field : DetectedField) (s : Screen) :
  delivery field s OnPill DragStart =
  {| pill :=
       {| isHovered := isHovered (local s);
          isDragging := true;
          lastPointerTypeRef := lastPointerTypeRef (local s) |};
     dataTransfer :=
       {| items :=
            <["application/json" := JSON.stringify field]> (items (drag s));
          effectAllowed := "copy" |};
     propagationStopped := false; calls := [] |}.
Proof. reflexivity. Qed.

Lemma delivery_DragEnd (field : DetectedField) (s : Screen) :
  delivery field s OnPill DragEnd =
  {| pill :=
       {| isHovered := isHovered (local s);
          isDragging := false;
          lastPointerTypeRef := lastPointerTypeRef (local s) |};
     dataTransfer := drag s; propagationStopped := false; calls := [] |}.
Proof. reflexivity. Qed.

(** A click on the pill leaves the component state and the drag data
    store as they were, whatever the recorded pointer kind. *)
Lemma deliver_Click_local (field : DetectedField) (s : Screen) :
  local (deliver field s OnPill Click) = local s ∧
  drag (deliver field s OnPill Click) = drag s.
Proof. unfold deliver. by rewrite delivery_Click. Qed.

Lemma normalized_kind (k : string) :
  (if String.eqb k "mouse" || String.eqb k "pen" || String.eqb k "touch"
   then k else "unknown") =
  (if bool_decide (k ∈ ["mouse"; "pen"; "touch"]) then k else "unknown").
Proof.
  case_bool_decide as Hk.
  - apply list_elem_of_In in Hk. simpl in Hk.
    destruct Hk as [<-|[<-|[<-|[]]]]; reflexivity.
  - destruct (String.eqb_spec k "mouse") as [->|_]; [exfalso; apply Hk; set_solver|].
    destruct (String.eqb_spec k "pen") as [->|_]; [exfalso; apply Hk; set_solver|].
    destruct (String.eqb_spec k "touch") as [->|_]; [exfalso; apply Hk; set_solver|].
    reflexivity.
Qed.

(** ** Pointer kind and click *)

(** C4. A pointer-down on the pill records the reported pointer type
    when it is mouse, pen or touch, and unknown for any other value; the
    recorded value is one of the four pointer kinds and nothing else
    changes.  A click leaves the recorded value, and the rest of the
    component state, as it was. *)
Theorem pointer_down_records_kind :
  ∀ (field : DetectedField) (s : Screen) (pointerType : string),
    let s1 := deliver field s OnPill (PointerDown pointerType) in
    lastPointerTypeRef (local s1)
      = (if bool_decide (pointerType ∈ ["mouse"; "pen"; "touch"])
         then pointerType else "unknown") ∧
    lastPointerTypeRef (local s1) ∈ PointerKind ∧
    isHovered (local s1) = isHovered (local s) ∧
    isDragging (local s1) = isDragging (local s) ∧
    app s1 = app s ∧
    drag s1 = drag s ∧
    local (deliver field s1 OnPill Click) = local s1 ∧
    local (deliver field s OnPill Click) = local s.
Proof.
  intros field s k s1. subst s1. unfold deliver at 1 2 3 4 5 6.
  rewrite delivery_PointerDown. cbn.
  rewrite normalized_kind.
  repeat split; try apply deliver_Click_local.
  unfold PointerKind. case_bool_decide as Hk; [|repeat constructor].
  apply list_elem_of_In in Hk. simpl in Hk.
  destruct Hk as [<-|[<-|[<-|[]]]]; repeat constructor.
Qed.

(** C2. When the recorded pointer kind is mouse, pen or unknown (the
    value a freshly mounted pill holds), a click on the pill makes no
    request to the shared state and leaves the whole screen, the shared
    selection included, as it was. *)
Theorem click_without_touch_changes_nothing :
  ∀ (field : DetectedField) (s : Screen),
    lastPointerTypeRef (local s) ∈ ["mouse"; "pen"; "unknown"] →
    calls (delivery field s OnPill Click) = [] ∧
    deliver field s OnPill Click = s ∧
    selectedField (app (deliver field s OnPill Click))
      = selectedField (app s).
Proof.
  intros field s Hk.
  assert (Hcalls : calls (delivery field s OnPill Click) = []).
  { rewrite delivery_Click. cbn.
    apply list_elem_of_In in Hk. simpl in Hk.
    destruct Hk as [<-|[<-|[<-|[]]]]; reflexivity. }
  assert (Hs : deliver field s OnPill Click = s).
  { unfold deliver. rewrite Hcalls. rewrite delivery_Click. cbn.
    by destruct s. }
  by rewrite Hs.
Qed.

(** The freshly mounted pill of [region], with [region] selected: the
    click changes nothing. *)
Lemma click_without_touch_witness :
  lastPointerTypeRef (local (screen (Some region) mounted))
    ∈ ["mouse"; "pen"; "unknown"] ∧
  calls (delivery region (screen (Some region) mounted) OnPill Click) = [] ∧
  deliver region (screen (Some region) mounted) OnPill Click
    = screen (Some region) mounted ∧
  selectedField
    (app (deliver region (screen (Some region) mounted) OnPill Click))
    = selectedField (app (screen (Some region) mounted)).
Proof.
  assert (H : lastPointerTypeRef (local (screen (Some region) mounted))
                ∈ ["mouse"; "pen"; "unknown"]).
  { cbn. repeat constructor. }
  split; [exact H |].
  exact (click_without_touch_changes_nothing region _ H).
Defined.

(** C1. When the recorded pointer kind is touch, a click on the pill
    makes exactly one request: clearSelectedField when this field is the
    selected one (the selected field has this field's name), and
    selectField with this field otherwise.  The shared selection is then
    empty, or this field, whatever was selected before; nothing else on
    the screen changes. *)
Theorem touch_click_toggles_selection :
  ∀ (field : DetectedField) (s : Screen),
    lastPointerTypeRef (local s) = "touch" →
    let s1 := deliver field s OnPill Click in
    (isSelected field (app s) = true ↔
       ∃ f, selectedField (app s) = Some f ∧ name f = name field) ∧
    calls (delivery field s OnPill Click)
      = [if isSelected field (app s)
         then ClearSelectedField else SelectField field] ∧
    app s1 = (if isSelected field (app s)
              then clearSelectedField (app s)
              else selectField field (app s)) ∧
    selectedField (app s1)
      = (if isSelected field (app s) then None else Some field) ∧
    fields (app s1) = fields (app s) ∧
    local s1 = local s ∧
    drag s1 = drag s.
Proof.
  intros field s Hk s1. subst s1. unfold deliver.
  rewrite delivery_Click, Hk. cbn.
  split; [apply isSelected_by_name |].
  by destruct (isSelected field (app s)).
Qed.

(** A touch click on [region]: with [revenue] selected, [region]
    replaces it; with [region] selected, the selection is cleared. *)
Lemma touch_click_witness :
  lastPointerTypeRef (local (screen (Some revenue) touched)) = "touch" ∧
  selectedField
    (app (deliver region (screen (Some revenue) touched) OnPill Click))
    = Some region ∧
  selectedField
    (app (deliver region (screen (Some region) touched) OnPill Click))
    = None.
Proof.
  split; [reflexivity |]. split.
  - exact (proj1 (proj2 (proj2 (proj2
      (touch_click_toggles_selection region
         (screen (Some revenue) touched) eq_refl))))).
  - exact (proj1 (proj2 (proj2 (proj2
      (touch_click_toggles_selection region
         (screen (Some region) touched) eq_refl))))).
Defined.

(** C10. When no field is selected, the guarded name read gives
    undefined and the selected check is false for every field, so the
    pill is drawn with the unselected background and border; a touch tap
    in that state requests selectField for the field, never
    clearSelectedField, and the field is the selection afterwards. *)
Theorem no_selection_then_touch_selects :
  ∀ (field : DetectedField) (s : Screen),
    selectedField (app s) = None →
    JS.optional_name (selectedField (app s)) = JS.undefined ∧
    isSelected field (app s) = false ∧
    backgroundColor (FieldPill field (app s) (local s))
      = (if isHovered (local s) then "var(--color-bg-tertiary)"
         else "var(--color-bg-elevated)") ∧
    border (FieldPill field (app s) (local s))
      = "1px solid " +:+
        (if isHovered (local s) then "var(--color-border-hover)"
         else "var(--color-border)") ∧
    calls (delivery field (deliver field s OnPill (PointerDown "touch"))
             OnPill Click)
      = [SelectField field] ∧
    selectedField (app (tap field s)) = Some field.
Proof.
  intros field s Hnone.
  assert (Hsel : isSelected field (app s) = false).
  { unfold isSelected. by rewrite Hnone. }
  unfold tap, FieldPill. cbn [backgroundColor border].
  set (s' := deliver field s OnPill (PointerDown "touch")).
  assert (Happ : app s' = app s) by reflexivity.
  assert (Hk : lastPointerTypeRef (local s') = "touch") by reflexivity.
  rewrite Hsel, Hnone.
  repeat split.
  - by rewrite delivery_Click, Hk, Happ, Hsel.
  - unfold deliver. by rewrite delivery_Click, Hk, Happ, Hsel.
Qed.

(** Nothing selected: [region] is not selected, and is after a tap. *)
Lemma no_selection_witness :
  selectedField (app (screen None mounted)) = None ∧
  isSelected region (app (screen None mounted)) = false ∧
  selectedField (app (tap region (screen None mounted))) = Some region.
Proof.
  split; [reflexivity |].
  pose proof (no_selection_then_touch_selects region
                (screen None mounted) eq_refl) as H.
  split; [exact (proj1 (proj2 H)) |].
  exact (proj2 (proj2 (proj2 (proj2 (proj2 H))))).
Defined.

(** On a freshly mounted pill, before any pointer-down, a click does
    nothing. *)
Lemma click_on_mounted_pill (field : DetectedField) (a : AppState)
    (dt : DataTransfer) :
  deliver field {| app := a; local := mounted; drag := dt |} OnPill Click
  = {| app := a; local := mounted; drag := dt |}.
Proof. reflexivity. Qed.

(** ** Drag transfer *)

(** C3. Drag-start puts [JSON.stringify(field)] into the drag data store
    under application/json (other items stay), a text that reads back as
    the object with exactly this field's name and type; it sets
    effectAllowed to copy and dragging to true, and changes nothing
    else.  Drag-end sets dragging to false from every prior state and
    changes nothing else. *)
Theorem drag_start_and_end :
  ∀ (field : DetectedField) (s : Screen),
    let s1 := deliver field s OnPill DragStart in
    let s2 := deliver field s OnPill DragEnd in
    items (drag s1)
      = <["application/json" := JSON.stringify field]> (items (drag s)) ∧
    items (drag s1) !! "application/json" = Some (JSON.stringify field) ∧
    JSON.parse_field (JSON.stringify field) = Some field ∧
    effectAllowed (drag s1) = "copy" ∧
    local s1 = {| isHovered := isHovered (local s);
                  isDragging := true;
                  lastPointerTypeRef := lastPointerTypeRef (local s) |} ∧
    app s1 = app s ∧
    calls (delivery field s OnPill DragStart) = [] ∧
    s2 = {| app := app s;
            local := {| isHovered := isHovered (local s);
                        isDragging := false;
                        lastPointerTypeRef := lastPointerTypeRef (local s) |};
            drag := drag s |} ∧
    calls (delivery field s OnPill DragEnd) = [].
Proof.
  intros field s s1 s2. subst s1 s2. unfold deliver.
  rewrite delivery_DragStart, delivery_DragEnd. cbn.
  repeat split.
  - apply lookup_insert_eq.
  - apply parse_field_stringify.
Qed.

(** C9. Drag-start does not look at the recorded pointer kind, nor at
    the hovered flag, the dragging flag or the shared state: from any
    two screens with the same drag data store it leaves the same store,
    holding the field's payload and the copy effect, with dragging true
    on both, and the recorded pointer kinds as they were. *)
Theorem drag_start_ignores_pointer_kind :
  ∀ (field : DetectedField) (a1 a2 : AppState) (h1 h2 g1 g2 : bool)
    (k1 k2 : string) (dt : DataTransfer),
    let s1 := {| app := a1;
                 local := {| isHovered := h1; isDragging := g1;
                             lastPointerTypeRef := k1 |};
                 drag := dt |} in
    let s2 := {| app := a2;
                 local := {| isHovered := h2; isDragging := g2;
                             lastPointerTypeRef := k2 |};
                 drag := dt |} in
    drag (deliver field s1 OnPill DragStart)
      = drag (deliver field s2 OnPill DragStart) ∧
    drag (deliver field s1 OnPill DragStart)
      = {| items := <["application/json" := JSON.stringify field]> (items dt);
           effectAllowed := "copy" |} ∧
    isDragging (local (deliver field s1 OnPill DragStart)) = true ∧
    isDragging (local (deliver field s2 OnPill DragStart)) = true ∧
    lastPointerTypeRef (local (deliver field s1 OnPill DragStart)) = k1 ∧
    lastPointerTypeRef (local (deliver field s2 OnPill DragStart)) = k2 ∧
    calls (delivery field s1 OnPill DragStart)
      = calls (delivery field s2 OnPill DragStart).
Proof. intros. repeat split. Qed.

(** ** The toggle control is on its own *)

Lemma delivery_toggle_Click (field : DetectedField) (s : Screen) :
  delivery field s OnToggle Click =
  match toggle (FieldPill field (app s) (local s)) with
  | Some _ =>
      {| pill := local s; dataTransfer := drag s; propagationStopped := true;
         calls := [ToggleFieldType (name field)] |}
  | None =>
      {| pill := local s; dataTransfer := drag s; propagationStopped := false;
         calls := [] |}
  end.
Proof.
  unfold delivery, path.
  by destruct (toggle (FieldPill field (app s) (local s))).
Qed.

(** C6. A click on the toggle button makes one request, toggleFieldType
    with the field's name, and stops the propagation, so the pill's own
    click handler does not run, even when the recorded pointer kind is
    touch: the shared selection, the dragging flag and the rest of the
    component state and the drag data store are as before.  The same
    holds for the whole gesture, a pointer-down of any kind on the
    button followed by the click.  (When the button is not rendered
    there is nothing to click and nothing happens.) *)
Theorem toggle_click_is_isolated :
  ∀ (field : DetectedField) (s : Screen) (pointerType : string),
    let s1 := deliver field s OnToggle Click in
    let s2 := deliver field (deliver field s OnToggle (PointerDown pointerType))
                OnToggle Click in
    calls (delivery field s OnToggle Click)
      = match toggle (FieldPill field (app s) (local s)) with
        | Some _ => [ToggleFieldType (name field)]
        | None => []
        end ∧
    propagationStopped (delivery field s OnToggle Click)
      = bool_decide (is_Some (toggle (FieldPill field (app s) (local s)))) ∧
    app s1
      = match toggle (FieldPill field (app s) (local s)) with
        | Some _ => toggleFieldType (name field) (app s)
        | None => app s
        end ∧
    selectedField (app s1) = selectedField (app s) ∧
    local s1 = local s ∧
    drag s1 = drag s ∧
    selectedField (app s2) = selectedField (app s) ∧
    isDragging (local s2) = isDragging (local s) ∧
    isHovered (local s2) = isHovered (local s) ∧
    drag s2 = drag s.
Proof.
  intros field s k s1 s2.
  assert (Hone : ∀ s0 : Screen,
            selectedField (app (deliver field s0 OnToggle Click))
              = selectedField (app s0) ∧
            local (deliver field s0 OnToggle Click) = local s0 ∧
            drag (deliver field s0 OnToggle Click) = drag s0).
  { intros s0. unfold deliver. rewrite delivery_toggle_Click.
    by destruct (toggle (FieldPill field (app s0) (local s0))). }
  assert (Hdown :
            app (deliver field s OnToggle (PointerDown k)) = app s ∧
            isDragging (local (deliver field s OnToggle (PointerDown k)))
              = isDragging (local s) ∧
            isHovered (local (deliver field s OnToggle (PointerDown k)))
              = isHovered (local s) ∧
            drag (deliver field s OnToggle (PointerDown k)) = drag s).
  { unfold deliver, delivery, path.
    by destruct (toggle (FieldPill field (app s) (local s))). }
  destruct (Hone s) as (Hsel & Hloc & Hdrag).
  destruct (Hone (deliver field s OnToggle (PointerDown k)))
    as (Hsel2 & Hloc2 & Hdrag2).
  destruct Hdown as (Ha & Hg & Hh & Hd).
  subst s1 s2.
  rewrite Hsel2, Hloc2, Hdrag2, Ha, Hg, Hh, Hd.
  repeat split; try assumption.
  - rewrite delivery_toggle_Click.
    by destruct (toggle (FieldPill field (app s) (local s))).
  - rewrite delivery_toggle_Click.
    by destruct (toggle (FieldPill field (app s) (local s))).
  - unfold deliver. rewrite delivery_toggle_Click.
    by destruct (toggle (FieldPill field (app s) (local s))).
Qed.

(** ** Repeated touch taps *)

Lemma tap_app (field : DetectedField) (s : Screen) :
  app (tap field s) =
  if isSelected field (app s)
  then clearSelectedField (app s)
  else selectField field (app s).
Proof.
  unfold tap.
  set (s' := deliver field s OnPill (PointerDown "touch")).
  assert (Happ : app s' = app s) by reflexivity.
  assert (Hk : lastPointerTypeRef (local s') = "touch") by reflexivity.
  unfold deliver. rewrite delivery_Click, Hk, Happ. cbn.
  by destruct (isSelected field (app s)).
Qed.

Lemma isSelected_selectField (field : DetectedField) (a : AppState) :
  isSelected field (selectField field a) = true.
Proof. unfold isSelected. cbn. apply String.eqb_refl. Qed.

Lemma isSelected_clearSelectedField (field : DetectedField) (a : AppState) :
  isSelected field (clearSelectedField a) = false.
Proof. reflexivity. Qed.

(** C8, as stated: two touch taps on a field do not restore the shared
    selection from every state.  With revenue selected, two taps on
    region leave nothing selected. *)
Lemma two_taps_lose_another_selection :
  ¬ (∀ (field : DetectedField) (s : Screen),
       selectedField (app (tap field (tap field s))) = selectedField (app s)).
Proof.
  intros H. specialize (H region (screen (Some revenue) mounted)).
  vm_compute in H. discriminate H.
Qed.

(** C8, amended. Each touch tap on a field flips whether that field is
    the selected one: the tap clears the selection when the field was
    selected and selects the field otherwise, so two taps give the
    selected check its first value back.  The shared selection after
    two taps is this field when a field of its name was selected, and
    empty otherwise: it is the original selection when that was empty
    or this very field, and it is empty when a field of another name
    was selected. *)
Theorem touch_tap_flips_selected :
  (∀ (field : DetectedField) (s : Screen),
     selectedField (app (tap field s))
       = (if isSelected field (app s) then None else Some field) ∧
     isSelected field (app (tap field s)) = negb (isSelected field (app s)) ∧
     isSelected field (app (tap field (tap field s)))
       = isSelected field (app s) ∧
     selectedField (app (tap field (tap field s)))
       = match selectedField (app s) with
         | None => None
         | Some f =>
             if String.eqb (name f) (name field) then Some field else None
         end) ∧
  (∀ (field : DetectedField) (fs : list DetectedField) (p : PillState)
     (dt : DataTransfer),
     app (tap field (tap field
            {| app := {| fields := fs; selectedField := None |};
               local := p; drag := dt |}))
       = {| fields := fs; selectedField := None |} ∧
     app (tap field (tap field
            {| app := {| fields := fs; selectedField := Some field |};
               local := p; drag := dt |}))
       = {| fields := fs; selectedField := Some field |}).
Proof.
  assert (Hflip : ∀ field s,
            isSelected field (app (tap field s))
              = negb (isSelected field (app s))).
  { intros field s. rewrite tap_app.
    destruct (isSelected field (app s)) eqn:Hsel;
      [apply isSelected_clearSelectedField | apply isSelected_selectField]. }
  split.
  - intros field s. split.
    { rewrite tap_app. by destruct (isSelected field (app s)). }
    split; [apply Hflip |]. split.
    + by rewrite !Hflip, negb_involutive.
    + rewrite tap_app, Hflip, tap_app. unfold isSelected.
      destruct (selectedField (app s)) as [f|]; cbn; [|reflexivity].
      by destruct (String.eqb (name f) (name field)).
  - intros field fs p dt. split.
    + rewrite tap_app, Hflip, tap_app. reflexivity.
    + rewrite tap_app, Hflip, tap_app. unfold isSelected. cbn.
      by rewrite String.eqb_refl.
Qed.

(** ** The recorded kind over a run of events *)

Lemma PointerKind_normalized (k : string) :
  (if String.eqb k "mouse" || String.eqb k "pen" || String.eqb k "touch"
   then k else "unknown") ∈ PointerKind.
Proof.
  rewrite normalized_kind. unfold PointerKind.
  case_bool_decide as Hk; [|repeat constructor].
  apply list_elem_of_In in Hk. simpl in Hk.
  destruct Hk as [<-|[<-|[<-|[]]]]; repeat constructor.
Qed.

(** A pointer-down on the toggle button has no handler there and
    reaches the pill's. *)
Lemma delivery_toggle_PointerDown (field : DetectedField) (s : Screen)
    (k : string) :
  is_Some (toggle (FieldPill field (app s) (local s))) →
  delivery field s OnToggle (PointerDown k)
  = delivery field s OnPill (PointerDown k).
Proof.
  intros [b Hb]. unfold delivery, path. by rewrite Hb.
Qed.

(** Whatever the event and its target, the recorded kind is either left
    alone or set by [handlePointerDown]. *)
Lemma deliver_lastPointerTypeRef (field : DetectedField) (s : Screen)
    (target : Target) (ev : Event) :
  lastPointerTypeRef (local (deliver field s target ev))
    = lastPointerTypeRef (local s) ∨
  ∃ k, ev = PointerDown k ∧
       lastPointerTypeRef (local (deliver field s target ev))
         = if String.eqb k "mouse" || String.eqb k "pen"
              || String.eqb k "touch"
           then k else "unknown".
Proof.
  destruct target.
  - destruct ev as [k| | | | | |];
      try (left; reflexivity); [right; by exists k | left].
    by rewrite (proj1 (deliver_Click_local field s)).
  - unfold deliver, delivery, path.
    destruct (toggle (FieldPill field (app s) (local s)));
      [|left; reflexivity].
    destruct ev as [k| | | | | |];
      try (left; reflexivity).
    right; by exists k.
Qed.

Lemma deliver_PointerKind (field : DetectedField) (s : Screen)
    (target : Target) (ev : Event) :
  lastPointerTypeRef (local s) ∈ PointerKind →
  lastPointerTypeRef (local (deliver field s target ev)) ∈ PointerKind.
Proof.
  intros Hs.
  destruct (deliver_lastPointerTypeRef field s target ev)
    as [-> | (k & _ & ->)]; [exact Hs | apply PointerKind_normalized].
Qed.

(** X9. From the mount on, after any sequence of events on the pill or
    on its toggle button, whatever pointer types they report, the ref
    holds one of the four pointer kinds. *)
Lemma run_PointerKind (field : DetectedField) (a : AppState)
    (dt : DataTransfer) (events : list (Target * Event)) :
  lastPointerTypeRef
    (local (run field {| app := a; local := mounted; drag := dt |} events))
  ∈ PointerKind.
Proof.
  unfold run.
  assert (Hinv : ∀ s, lastPointerTypeRef (local s) ∈ PointerKind →
            lastPointerTypeRef
              (local (fold_left (λ s' e, deliver field s' e.1 e.2) events s))
            ∈ PointerKind).
  { induction events as [|[target ev] events IH]; intros s Hs; [exact Hs |].
    cbn [fold_left]. apply IH. by apply deliver_PointerKind. }
  apply Hinv. unfold PointerKind. cbn. repeat constructor.
Qed.

(** * Further properties of the component *)

(** ** Hover *)

(** X1. Mouse-enter and mouse-leave on the pill set the hovered flag
    and nothing else, and make no request.  After mouse-enter the
    toggle button is rendered exactly for a nominal or ordinal field
    and the drag indicator is visible; after mouse-leave neither is. *)
Theorem hover_gates_toggle :
  ∀ (field : DetectedField) (s : Screen),
    let s1 := deliver field s OnPill MouseEnter in
    let s0 := deliver field s OnPill MouseLeave in
    s1 = {| app := app s;
            local := {| isHovered := true;
                        isDragging := isDragging (local s);
                        lastPointerTypeRef := lastPointerTypeRef (local s) |};
            drag := drag s |} ∧
    s0 = {| app := app s;
            local := {| isHovered := false;
                        isDragging := isDragging (local s);
                        lastPointerTypeRef := lastPointerTypeRef (local s) |};
            drag := drag s |} ∧
    calls (delivery field s OnPill MouseEnter) = [] ∧
    calls (delivery field s OnPill MouseLeave) = [] ∧
    (is_Some (toggle (FieldPill field (app s1) (local s1))) ↔
       type field = nominal ∨ type field = ordinal) ∧
    toggle (FieldPill field (app s0) (local s0)) = None ∧
    gripOpacity (local s1) = "1" ∧
    gripOpacity (local s0) = "0".
Proof.
  intros field s s1 s0. subst s1 s0.
  repeat split; try reflexivity.
  - intros [b Hb]. destruct field as [n []]; vm_compute in Hb;
      try discriminate; auto.
  - intros [Ht|Ht]; destruct field as [n t]; cbn in Ht; subst t;
      eexists; reflexivity.
  - unfold FieldPill, deliver. cbn [toggle local pill delivery].
    run_delivery. by rewrite andb_false_r.
Qed.

(** ** Styling *)

(** X2. The background and the border of the pill tell its state
    apart: they are the accent pair exactly when the field is selected
    (hovered or not), the hover pair exactly when it is hovered and not
    selected, and the default pair exactly when it is neither. *)
Theorem styling_identifies_state :
  ∀ (field : DetectedField) (state : AppState) (p : PillState),
    let v := FieldPill field state p in
    (backgroundColor v = "var(--color-accent-glow)" ↔
       isSelected field state = true) ∧
    (border v = "1px solid var(--color-accent)" ↔
       isSelected field state = true) ∧
    (backgroundColor v = "var(--color-bg-tertiary)" ↔
       isSelected field state = false ∧ isHovered p = true) ∧
    (border v = "1px solid var(--color-border-hover)" ↔
       isSelected field state = false ∧ isHovered p = true) ∧
    (backgroundColor v = "var(--color-bg-elevated)" ↔
       isSelected field state = false ∧ isHovered p = false) ∧
    (border v = "1px solid var(--color-border)" ↔
       isSelected field state = false ∧ isHovered p = false).
Proof.
  intros field state p v. subst v. unfold FieldPill.
  cbn [backgroundColor border].
  destruct (isSelected field state), (isHovered p);
    repeat split; try discriminate; try tauto;
    try (intros [? ?]; discriminate).
Qed.

(** ** More on the drag transfer *)

(** X3. Between drag-start and drag-end the pill shows the grabbing
    cursor at half opacity; after drag-end it shows the grab cursor at
    full opacity again.  Drag-end leaves the payload in the drag data
    store, and the pair of events changes nothing of the component
    state but the dragging flag, which ends false. *)
Theorem drag_feedback :
  ∀ (field : DetectedField) (s : Screen),
    let s1 := deliver field s OnPill DragStart in
    let s2 := deliver field s1 OnPill DragEnd in
    cursor (FieldPill field (app s1) (local s1)) = "grabbing" ∧
    opacity (FieldPill field (app s1) (local s1)) = "0.5" ∧
    cursor (FieldPill field (app s2) (local s2)) = "grab" ∧
    opacity (FieldPill field (app s2) (local s2)) = "1" ∧
    local s2 = {| isHovered := isHovered (local s);
                  isDragging := false;
                  lastPointerTypeRef := lastPointerTypeRef (local s) |} ∧
    drag s2 = drag s1 ∧
    items (drag s2) !! "application/json" = Some (JSON.stringify field) ∧
    app s2 = app s.
Proof.
  intros field s s1 s2. subst s1 s2. unfold deliver.
  rewrite delivery_DragEnd. cbn [local drag app pill dataTransfer calls].
  rewrite delivery_DragStart. cbn.
  repeat split. apply lookup_insert_eq.
Qed.

(** X4. A drag-start replaces the payload an earlier drag-start left
    under application/json, and never touches an item of another
    type. *)
Theorem drag_start_overwrites :
  ∀ (f g : DetectedField) (s : Screen) (key : string),
    key ≠ "application/json" →
    drag (deliver g (deliver f s OnPill DragStart) OnPill DragStart)
      = drag (deliver g s OnPill DragStart) ∧
    items (drag (deliver f s OnPill DragStart)) !! key
      = items (drag s) !! key.
Proof.
  intros f g s key Hkey. unfold deliver.
  repeat (rewrite delivery_DragStart; cbn [drag dataTransfer items]).
  split.
  - by rewrite insert_insert_eq.
  - by rewrite lookup_insert_ne.
Qed.

(** A store that holds a text item: dragging [revenue] and then
    [region] leaves the text item and the payload of [region]. *)
Lemma drag_start_overwrites_witness :
  "text/plain" ≠ "application/json" ∧
  items (drag (deliver region
                 (deliver revenue
                    {| app := app (screen None mounted); local := mounted;
                       drag := setData "text/plain" "note" fresh |}
                    OnPill DragStart)
                 OnPill DragStart))
    !! "application/json" = Some (JSON.stringify region) ∧
  items (drag (deliver revenue
                 {| app := app (screen None mounted); local := mounted;
                    drag := setData "text/plain" "note" fresh |}
                 OnPill DragStart))
    !! "text/plain" = Some "note".
Proof.
  assert (H : "text/plain" ≠ "application/json") by discriminate.
  split; [exact H |].
  pose proof (drag_start_overwrites revenue region
                {| app := app (screen None mounted); local := mounted;
                   drag := setData "text/plain" "note" fresh |}
                "text/plain" H) as [H1 H2].
  split.
  - rewrite H1. apply lookup_insert_eq.
  - rewrite H2. apply lookup_insert_eq.
Defined.


(** ** The toggle button *)

(** X6. A rendered toggle button names the type it switches to: on an
    ordinal field its text is N, the label of nominal, and its title
    announces nominal; on a nominal field its text is O, the label of
    ordinal, and its title announces ordinal.  No third case exists,
    and the text is never the label the pill shows for the field. *)
Theorem toggle_button_names_other_type :
  ∀ (field : DetectedField) (state : AppState) (p : PillState)
    (b : ToggleButton),
    toggle (FieldPill field state p) = Some b →
    ((type field = ordinal ∧
      text b = "N" ∧
      title b = "Switch to Nominal (distinct colors)" ∧
      index_by_type TYPE_LABELS nominal = Some (text b)) ∨
     (type field = nominal ∧
      text b = "O" ∧
      title b = "Switch to Ordinal (gradient colors)" ∧
      index_by_type TYPE_LABELS ordinal = Some (text b))) ∧
    label (FieldPill field state p) ≠ Some (text b).
Proof.
  intros [n t] state [h g k] b Hb.
  unfold FieldPill, canToggle in Hb. cbn [toggle type isHovered] in Hb.
  destruct t, h; vm_compute in Hb; try discriminate;
    injection Hb as <-; (split; [|vm_compute; discriminate]);
    [right | left]; repeat split.
Qed.

(** The hovered pill of [region], a nominal field: the button reads O. *)
Lemma toggle_button_witness :
  toggle (FieldPill region (app (screen None hovering)) hovering)
    = Some {| title := "Switch to Ordinal (gradient colors)"; text := "O" |} ∧
  label (FieldPill region (app (screen None hovering)) hovering)
    ≠ Some "O".
Proof.
  assert (H : toggle (FieldPill region (app (screen None hovering)) hovering)
              = Some {| title := "Switch to Ordinal (gradient colors)";
                        text := "O" |}) by reflexivity.
  split; [exact H |].
  exact (proj2 (toggle_button_names_other_type region _ hovering _ H)).
Defined.

(** X13. Mouse-out gives the toggle button the colors of its style prop
    back, whatever they were before, so mouse-over followed by
    mouse-out leaves no trace; mouse-over changes all three colors. *)
Theorem button_hover_round_trip :
  ∀ c : ButtonColors,
    button_onMouseOut (button_onMouseOver c) = button_style ∧
    button_onMouseOut c = button_style ∧
    button_onMouseOver (button_onMouseOver c) = button_onMouseOver c ∧
    button_backgroundColor (button_onMouseOver c)
      ≠ button_backgroundColor button_style ∧
    button_borderColor (button_onMouseOver c)
      ≠ button_borderColor button_style ∧
    button_color (button_onMouseOver c) ≠ button_color button_style.
Proof. intros c. repeat split; discriminate. Qed.

(** ** Requests and frames *)

(** X7. The delivery of an event makes at most one request to the
    shared state, only a click makes one, and a request is about this
    pill's field: clearSelectedField, selectField of the field, or
    toggleFieldType of its name. *)
Theorem requests_per_event :
  ∀ (field : DetectedField) (s : Screen) (target : Target) (ev : Event),
    calls (delivery field s target ev) = [] ∨
    (ev = Click ∧
     (calls (delivery field s target ev) = [ClearSelectedField] ∨
      calls (delivery field s target ev) = [SelectField field] ∨
      calls (delivery field s target ev) = [ToggleFieldType (name field)])).
Proof.
  intros field s [] ev.
  - destruct ev; try (left; reflexivity).
    rewrite delivery_Click. cbn [calls].
    destruct (String.eqb _ "touch"); [right | by left].
    split; [reflexivity |].
    destruct (isSelected field (app s)); auto.
  - destruct ev;
      try (left; unfold delivery, path;
           by destruct (toggle (FieldPill field (app s) (local s)))).
    rewrite delivery_toggle_Click.
    destruct (toggle (FieldPill field (app s) (local s))); auto.
Qed.

(** X8. An event changes at most one of the three cells of the
    component state.  The dragging flag changes only on drag-start and
    drag-end, the hovered flag only on mouse-enter and mouse-leave on
    the pill itself, the recorded kind only on pointer-down, and the
    drag data store only on drag-start. *)
Theorem event_changes_one_cell :
  ∀ (field : DetectedField) (s : Screen) (target : Target) (ev : Event),
    let p := local s in
    let p' := local (deliver field s target ev) in
    ((isHovered p' = isHovered p ∧ isDragging p' = isDragging p) ∨
     (isHovered p' = isHovered p ∧
      lastPointerTypeRef p' = lastPointerTypeRef p) ∨
     (isDragging p' = isDragging p ∧
      lastPointerTypeRef p' = lastPointerTypeRef p)) ∧
    (isDragging p' = isDragging p ∨ ev = DragStart ∨ ev = DragEnd) ∧
    (isHovered p' = isHovered p ∨
     (target = OnPill ∧ (ev = MouseEnter ∨ ev = MouseLeave))) ∧
    (lastPointerTypeRef p' = lastPointerTypeRef p ∨
     ∃ k, ev = PointerDown k) ∧
    (drag (deliver field s target ev) = drag s ∨ ev = DragStart).
Proof.
  intros field s target ev p p'. subst p p'.
  destruct target.
  - destruct ev as [k| | | | | |];
      try (repeat split; eauto 6; fail).
    destruct (deliver_Click_local field s) as [-> ->].
    repeat split; auto.
  - unfold deliver, delivery, path.
    destruct (toggle (FieldPill field (app s) (local s)));
      [|repeat split; auto].
    destruct ev as [k| | | | | |]; repeat split; eauto 6.
Qed.

(** X10. The toggle button stops a mouse-down, which then changes
    nothing, but has no handler for pointer-down: a pointer-down on the
    rendered button is not stopped and is recorded by the pill exactly
    as one on the pill itself. *)
Theorem pointer_down_on_toggle_reaches_pill :
  ∀ (field : DetectedField) (s : Screen) (k : string),
    is_Some (toggle (FieldPill field (app s) (local s))) →
    deliver field s OnToggle (PointerDown k)
      = deliver field s OnPill (PointerDown k) ∧
    propagationStopped (delivery field s OnToggle (PointerDown k)) = false ∧
    deliver field s OnToggle MouseDown = s ∧
    propagationStopped (delivery field s OnToggle MouseDown) = true.
Proof.
  intros field s k Hshown.
  split.
  { unfold deliver. by rewrite delivery_toggle_PointerDown. }
  split.
  { by rewrite delivery_toggle_PointerDown. }
  destruct Hshown as [b Hb].
  unfold deliver, delivery, path. rewrite Hb. cbn.
  split; [by destruct s | reflexivity].
Qed.

(** The hovered pill of [region]: a touch on its button is recorded. *)
Lemma pointer_down_on_toggle_witness :
  is_Some (toggle (FieldPill region (app (screen None hovering))
                     (local (screen None hovering)))) ∧
  lastPointerTypeRef
    (local (deliver region (screen None hovering) OnToggle
              (PointerDown "touch")))
    = "touch".
Proof.
  assert (H : is_Some (toggle (FieldPill region (app (screen None hovering))
                                 (local (screen None hovering))))).
  { eexists. reflexivity. }
  split; [exact H |].
  rewrite (proj1 (pointer_down_on_toggle_reaches_pill region
                    (screen None hovering) "touch" H)).
  reflexivity.
Defined.

(** ** Selection and tables *)

(** X11. The selected check goes by name alone: when one field is
    selected, another field is selected exactly when it has the same
    name, whatever its type.  So pills of different names are never
    selected together. *)
Theorem selection_goes_by_name :
  ∀ (f g : DetectedField) (state : AppState),
    isSelected f state = true →
    isSelected g state = bool_decide (name g = name f).
Proof.
  intros f g state Hf.
  apply isSelected_by_name in Hf as (sel & Hsel & Hname).
  unfold isSelected. rewrite Hsel. cbn. rewrite Hname.
  case_bool_decide as Hg.
  - rewrite Hg. apply String.eqb_refl.
  - apply String.eqb_neq. congruence.
Qed.

(** With [region] selected, [revenue] is not, and a field named region
    of another type is. *)
Lemma selection_goes_by_name_witness :
  isSelected region (app (screen (Some region) mounted)) = true ∧
  isSelected revenue (app (screen (Some region) mounted)) = false ∧
  isSelected {| name := "region"; type := ordinal |}
    (app (screen (Some region) mounted)) = true.
Proof.
  assert (H : isSelected region (app (screen (Some region) mounted)) = true)
    by reflexivity.
  split; [exact H |]. split.
  - exact (selection_goes_by_name region revenue _ H).
  - exact (selection_goes_by_name region
             {| name := "region"; type := ordinal |} _ H).
Defined.

(** X12. Different field types have different labels and different
    colors: the label, or the color, tells the type. *)
Theorem table_values_distinct :
  ∀ t1 t2 : FieldType,
    (index_by_type TYPE_LABELS t1 = index_by_type TYPE_LABELS t2 ↔ t1 = t2) ∧
    (index_by_type TYPE_COLORS t1 = index_by_type TYPE_COLORS t2 ↔ t1 = t2).
Proof.
  intros t1 t2.
  split; (split; [|by intros ->]);
    destruct t1, t2; intros H; try reflexivity;
    vm_compute in H; discriminate H.
Qed.

(** ** The gesture as a whole *)

(** X14. A click acts on the pointer-down that came last before it: an
    earlier pointer-down is forgotten, and the click makes a request
    exactly when the last one reported the very string touch.  A
    reported type is recorded unchanged exactly when it is one of the
    four pointer kinds. *)
Theorem click_follows_last_pointer_down :
  ∀ (field : DetectedField) (s : Screen) (k1 k2 : string),
    deliver field (deliver field s OnPill (PointerDown k1))
      OnPill (PointerDown k2)
      = deliver field s OnPill (PointerDown k2) ∧
    calls (delivery field (deliver field s OnPill (PointerDown k2))
             OnPill Click)
      = (if String.eqb k2 "touch"
         then [if isSelected field (app s)
               then ClearSelectedField else SelectField field]
         else []) ∧
    (lastPointerTypeRef (local (deliver field s OnPill (PointerDown k1))) = k1
       ↔ k1 ∈ PointerKind).
Proof.
  intros field s k1 k2. split; [reflexivity |]. split.
  - rewrite delivery_Click.
    change (app (deliver field s OnPill (PointerDown k2))) with (app s).
    change (lastPointerTypeRef
              (local (deliver field s OnPill (PointerDown k2))))
      with (if String.eqb k2 "mouse" || String.eqb k2 "pen"
               || String.eqb k2 "touch"
            then k2 else "unknown").
    cbn [calls].
    destruct (String.eqb_spec k2 "touch") as [->|Hk]; [reflexivity |].
    destruct (String.eqb k2 "mouse" || String.eqb k2 "pen" || false);
      [|reflexivity].
    by apply String.eqb_neq in Hk as ->.
  - change (lastPointerTypeRef
              (local (deliver field s OnPill (PointerDown k1))))
      with (if String.eqb k1 "mouse" || String.eqb k1 "pen"
               || String.eqb k1 "touch"
            then k1 else "unknown").
    rewrite normalized_kind. unfold PointerKind.
    case_bool_decide as Hk.
    + split; [intros _ | reflexivity].
      apply list_elem_of_In in Hk. simpl in Hk.
      destruct Hk as [<-|[<-|[<-|[]]]]; repeat constructor.
    + split; [intros <-; repeat constructor |].
      intros Hin. apply list_elem_of_In in Hin. simpl in Hin.
      destruct Hin as [<-|[<-|[<-|[<-|[]]]]]; try reflexivity;
        exfalso; apply Hk; repeat constructor.
Qed.
